(** * discord_stocks.py: command parser, data fetcher and chart renderer

    A shallow embedding of [src/discord_stocks.py].

    - A Python [str] that the program reads (the command, its tokens) is a
      Rocq [string]; a character is read as the code point of the same
      number (U+0000 .. U+00FF).  [str.strip], [str.split], [==], [in],
      [int] and [str.upper] are modelled exactly on that range.
    - [str.upper] leaves the range (U+00B5 gives U+039C, U+00FF gives
      U+0178), so the strings made from its result (the ticker, the
      address of the request, the title) are lists of code points,
      [ustring]; [Py.ustr] reads a [string] as such a list.
    - A raised exception is the [Raise] branch of [result]; list indexing
      out of range raises [IndexError] as in Python.
    - The dictionary returned by [parse_query] has five fixed keys with
      values of different types and is never updated: it is a record.
    - [requests.get], [pandas.read_csv], [mpf.plot] and the formatting of
      floating-point numbers are collaborators outside the repository; they
      are the fields of the class [World], and every call that reaches one
      of them is recorded in a trace of events. *)

From Stdlib Require Import ZArith NArith Ascii String DecimalString Lia.
From Stdlib Require DecimalPos.
From stdpp Require Import base option list strings.

Local Open Scope Z_scope.

(** ** Exceptions and results *)

Inductive exn : Type :=
  | TypeError (msg : string)
  | ValueError (msg : string)
  | IndexError (msg : string)
  | Exception (msg : string)
  | LibraryError (msg : string).

Inductive result (A : Type) : Type :=
  | Ok (a : A)
  | Raise (e : exn).
Arguments Ok {A} a.
Arguments Raise {A} e.

Definition rbind {A B} (r : result A) (k : A -> result B) : result B :=
  match r with
  | Ok a => k a
  | Raise e => Raise e
  end.

Notation "x <- r ;;; k" := (rbind r (fun x => k))
  (at level 100, r at next level, right associativity).

(** [try: r except Exception: raise e] *)
Definition try_except {A} (r : result A) (e : exn) : result A :=
  match r with
  | Ok a => Ok a
  | Raise _ => Raise e
  end.

(** ** The Python built-ins the parser uses *)

(** A [str] given by its code points. *)
Notation ustring := (list N) (only parsing).

Module Py.

Definition code (c : ascii) : N := N_of_ascii c.

Definition between (lo hi : N) (c : ascii) : bool :=
  ((lo <=? code c) && (code c <=? hi))%N.

(** [c.isspace()]: U+0009..U+000D, U+001C..U+0020, U+0085, U+00A0. *)
Definition isspace (c : ascii) : bool :=
  between 9 13 c || between 28 32 c || between 133 133 c || between 160 160 c.

Fixpoint lstrip (s : string) : string :=
  match s with
  | EmptyString => EmptyString
  | String c s' => if isspace c then lstrip s' else s
  end.

Fixpoint rstrip (s : string) : string :=
  match s with
  | EmptyString => EmptyString
  | String c s' =>
      match rstrip s' with
      | EmptyString => if isspace c then EmptyString else String c EmptyString
      | r => String c r
      end
  end.

(** [s.strip()] *)
Definition strip (s : string) : string := rstrip (lstrip s).

(** [s.split(sep)] for a separator of one character: every occurrence
    of [sep] ends a token, empty tokens are kept, and the result always
    has at least one token. *)
Fixpoint split (sep : ascii) (s : string) : list string :=
  match s with
  | EmptyString => [EmptyString]
  | String c s' =>
      if decide (c = sep) then EmptyString :: split sep s'
      else match split sep s' with
           | t :: ts => String c t :: ts
           | [] => [String c EmptyString]
           end
  end.

(** The code points of a string. *)
Fixpoint ustr (s : string) : ustring :=
  match s with
  | EmptyString => []
  | String c s' => code c :: ustr s'
  end.

(** [c.upper()] for a character of U+0000..U+00FF: the letters a-z, the
    letters U+00E0..U+00FE (but the division sign U+00F7) go 32 down;
    U+00B5 gives U+039C, U+00DF gives SS, U+00FF gives U+0178; every
    other character stays. *)
Definition upper_char (c : ascii) : ustring :=
  if between 97 122 c then [(code c - 32)%N]
  else if between 181 181 c then [924%N]
  else if between 223 223 c then [83%N; 83%N]
  else if between 224 246 c || between 248 254 c then [(code c - 32)%N]
  else if between 255 255 c then [376%N]
  else [code c].

(** [s.upper()] *)
Fixpoint upper (s : string) : ustring :=
  match s with
  | EmptyString => []
  | String c s' => upper_char c ++ upper s'
  end.

(** [l[i]] *)
Definition index {A} (l : list A) (i : nat) : result A :=
  match l !! i with
  | Some x => Ok x
  | None => Raise (IndexError "list index out of range")
  end.

(** [if l:] on a list or a tuple. *)
Definition truthy {A} (l : list A) : bool :=
  match l with
  | [] => false
  | _ :: _ => true
  end.

(** [x in l] *)
Definition contains (x : string) (l : list string) : bool :=
  bool_decide (x ∈ l).

(** [str(l)] for a list of strings that need no escaping. *)
Definition repr_str (s : string) : string := "'" +:+ s +:+ "'".

Fixpoint join (sep : string) (l : list string) : string :=
  match l with
  | [] => ""
  | [x] => x
  | x :: l' => x +:+ sep +:+ join sep l'
  end.

Definition str_list (l : list string) : string :=
  "[" +:+ join ", " (repr_str <$> l) +:+ "]".

(** [str(z)] for an integer. *)
Definition str_int (z : Z) : string := NilZero.string_of_int (Z.to_int z).

(** *** [int(s)]

    The white space [int] skips on both sides is not that of [strip]:
    U+001C..U+001F are not skipped.  After an optional sign come
    decimal digits, with single underscores allowed between two digits.
    A literal of more than [max_str_digits] digits is refused. *)

Definition int_space (c : ascii) : bool :=
  between 9 13 c || between 32 32 c || between 133 133 c || between 160 160 c.

Definition digit_value (c : ascii) : option Z :=
  if between 48 57 c then Some (Z.of_N (code c) - 48) else None.

Fixpoint skip_space (s : string) : string :=
  match s with
  | EmptyString => EmptyString
  | String c s' => if int_space c then skip_space s' else s
  end.

Fixpoint scan_digits (s : string) (acc : Z) (n : nat) (prev_digit : bool)
  : option (Z * nat * string) :=
  match s with
  | EmptyString => if prev_digit then Some (acc, n, EmptyString) else None
  | String c s' =>
      match digit_value c with
      | Some d => scan_digits s' (acc * 10 + d) (S n) true
      | None =>
          if decide (c = "_"%char)
          then (if prev_digit then scan_digits s' acc n false else None)
          else (if prev_digit then Some (acc, n, s) else None)
      end
  end.

Definition max_str_digits : nat := 4300.

Definition invalid_literal : exn :=
  ValueError "invalid literal for int() with base 10".

Definition unsigned_int (sign : Z) (s : string) : result Z :=
  match scan_digits s 0 0%nat false with
  | Some (v, n, rest) =>
      match skip_space rest with
      | EmptyString =>
          if (max_str_digits <? n)%nat
          then Raise (ValueError "Exceeds the limit for integer string conversion")
          else Ok (sign * v)
      | _ => Raise invalid_literal
      end
  | None => Raise invalid_literal
  end.

Definition int (s : string) : result Z :=
  match skip_space s with
  | String "+" s' => unsigned_int 1 s'
  | String "-" s' => unsigned_int (-1) s'
  | s' => unsigned_int 1 s'
  end.

End Py.

(** ** parse_query *)

Record ChartRequest : Type := {
  ticker : ustring;
  range : string;
  interval : string;
  type : string;
  mav : list Z
}.

Definition valid_ranges : list string :=
  ["1d"; "5d"; "1mo"; "3mo"; "6mo"; "1y"; "2y"; "5y"; "10y"; "ytd"; "max"].

Definition valid_intervals : list string :=
  ["1m"; "2m"; "5m"; "15m"; "30m"; "60m"; "90m"; "1h"; "1d"; "5d"; "1wk";
   "1mo"; "3mo"].

Definition valid_types : list string := ["candle"; "line"].

Definition newline : string := String "010"%char EmptyString.

Definition usage : string :=
  "Usage: &stock <ticker> <range> <interval> <type> <moving average values>. "
  +:+ newline +:+
  "    E.g. &stock AAPL 1y 1d candle 2 3 5 creates a candlestick chart of AAPL for the last year at a daily "
  +:+ newline +:+
  "    interval with 2, 3, and 5 day moving averages.".

Definition ranges_message : string :=
  "The valid ranges are: " +:+ Py.str_list valid_ranges.
Definition intervals_message : string :=
  "The valid intervals are: " +:+ Py.str_list valid_intervals.
Definition types_message : string :=
  "The valid types are: " +:+ Py.str_list valid_types.
Definition mav_message : string :=
  "Invalid moving average values, try again with integers.".

(** [query_str.strip().split(' ')] *)
Definition tokenize (query_str : string) : list string :=
  Py.split " "%char (Py.strip query_str).

(** The [for value in mav: try: int(value) except Exception: raise ...]
    loop of lines 33-37, inside the [if mav:] of line 32. *)
Fixpoint check_mav (mav : list string) : result unit :=
  match mav with
  | [] => Ok tt
  | value :: mav' =>
      _ <- try_except (Py.int value) (TypeError mav_message) ;;;
      check_mav mav'
  end.

(** [tuple(int(x) for x in l)] of line 44; an exception of [int] is not
    caught here. *)
Fixpoint int_tuple (l : list string) : result (list Z) :=
  match l with
  | [] => Ok []
  | x :: l' =>
      z <- Py.int x ;;;
      zs <- int_tuple l' ;;;
      Ok (z :: zs)
  end.

Definition parse_query (query_str : string) : result ChartRequest :=
  let query_tokens := tokenize query_str in
  t0 <- Py.index query_tokens 0 ;;;
  if negb (bool_decide (t0 = "&stock")) then Raise (TypeError usage) else
  t2 <- Py.index query_tokens 2 ;;;
  if negb (Py.contains t2 valid_ranges) then Raise (TypeError ranges_message) else
  t3 <- Py.index query_tokens 3 ;;;
  if negb (Py.contains t3 valid_intervals) then Raise (TypeError intervals_message) else
  t4 <- Py.index query_tokens 4 ;;;
  if negb (Py.contains t4 valid_types) then Raise (TypeError types_message) else
  let mav := drop 5 query_tokens in
  _ <- (if Py.truthy mav then check_mav mav else Ok tt) ;;;
  t1 <- Py.index query_tokens 1 ;;;
  r <- Py.index query_tokens 2 ;;;
  i <- Py.index query_tokens 3 ;;;
  t <- Py.index query_tokens 4 ;;;
  m <- int_tuple (drop 5 query_tokens) ;;;
  Ok {| ticker := Py.upper t1; range := r; interval := i; type := t; mav := m |}.

(** ** The world outside the repository *)

Record Response : Type := {
  status_code : Z;
  text : string
}.

Record MarketColors : Type := {
  up : string;
  down : string;
  wick : list (string * string);
  edge : list (string * string);
  volume_colors : list (string * string)
}.

Record Style : Type := {
  marketcolors : MarketColors;
  base_mpl_style : string;
  facecolor : string;
  figcolor : string;
  mavcolors : list string
}.

(** The keyword arguments of [mpf.plot].  The two scale factors are kept
    as the decimal literals of the source. *)
Record Setup : Type := {
  setup_type : string;
  setup_volume : bool;
  tight_layout : bool;
  style : Style;
  setup_mav : list Z;
  scale_width_adjustment : list (string * string);
  figscale : Z;
  figratio : Z * Z;
  linecolor : string
}.

(** A plotted line with the y values [get_ydata()] returns, and the axes
    holding the lines in the order of [ax.lines]. *)
Record Line (F : Type) : Type := { ydata : list F }.
Arguments ydata {F} _.

Record Axes (F : Type) : Type := { lines : list (Line F) }.
Arguments lines {F} _.

Class World : Type := {
  DataFrame : Type;
  float : Type;
  (** [requests.get(url, headers=..., params=...)] *)
  requests_get :
    ustring -> list (string * string) -> list (string * string) -> result Response;
  (** [pd.read_csv(io.StringIO(text), index_col=0, parse_dates=True)] *)
  read_csv : string -> result DataFrame;
  (** [mpf.plot(data, **setup, returnfig=True)[1]] *)
  mpf_plot : DataFrame -> Setup -> result (list (Axes float));
  (** [f"{y:.2f}"] *)
  format_2f : float -> string
}.

(** ** Calls that leave the program, and their trace *)

Section Program.
Context {W : World}.

(** [Text i s c] is [ax.text(0.02, 0.94-0.04*i, s, transform=ax.transAxes,
    color=c)]: the height is a floating-point number that depends on [i]
    alone, and is recorded by [i]. *)
Inductive event : Type :=
  | Get (url : ustring) (headers params : list (string * string))
  | ReadCsv (body : string)
  | Plot (data : DataFrame) (setup : Setup)
  | SetTitle (title : ustring)
  | Text (i : nat) (s : string) (color : string)
  | Savefig (path : string)
  | Print (s : string).

Definition M (A : Type) : Type := (list event * result A)%type.

Definition ret {A} (a : A) : M A := ([], Ok a).
Definition raise {A} (e : exn) : M A := ([], Raise e).
Definition lift {A} (r : result A) : M A := ([], r).
Definition emit (ev : event) : M unit := ([ev], Ok tt).

Definition bind {A B} (m : M A) (k : A -> M B) : M B :=
  match m with
  | (tr, Ok a) => let '(tr', r) := k a in (tr ++ tr', r)
  | (tr, Raise e) => (tr, Raise e)
  end.

Notation "x <-- m ;; k" := (bind m (fun x => k))
  (at level 100, m at next level, right associativity).
Notation "m ;; k" := (bind m (fun _ => k))
  (at level 100, right associativity).

Definition trace {A} (m : M A) : list event := fst m.
Definition outcome {A} (m : M A) : result A := snd m.

(** ** request_data *)

Definition stock_url (tk : ustring) : ustring :=
  Py.ustr "https://query1.finance.yahoo.com/v7/finance/download/" ++ tk
  ++ Py.ustr "?".

Definition headers : list (string * string) :=
  [("User-Agent",
    "Mozilla/5.0 (Windows NT 10.0; Win64; x64; rv:90.0) Gecko/20100101 Firefox/90.0")].

Definition request_params (tokens : ChartRequest) : list (string * string) :=
  [("range", range tokens); ("interval", interval tokens); ("events", "history")].

Definition error_404 : exn :=
  Exception "Error 404; please try again with another ticker/range/interval.".

Definition request_data (tokens : ChartRequest) : M DataFrame :=
  let params := request_params tokens in
  let url := stock_url (ticker tokens) in
  emit (Get url headers params) ;;
  response <-- lift (requests_get url headers params) ;;
  if status_code response =? 404 then raise error_404 else
  let file := text response in
  emit (ReadCsv file) ;;
  lift (read_csv file).

(** ** create_chart *)

Definition up_color : string := "#59eb00".
Definition down_color : string := "#FF0000".
Definition dc_gray : string := "#36393E".

Definition mc : MarketColors := {|
  up := dc_gray;
  down := down_color;
  wick := [("up", up_color); ("down", down_color)];
  edge := [("up", up_color); ("down", down_color)];
  volume_colors := [("up", up_color); ("down", down_color)]
|}.

Definition s : Style := {|
  marketcolors := mc;
  base_mpl_style := "dark_background";
  facecolor := dc_gray;
  figcolor := dc_gray;
  mavcolors := ["#5662f6"; "#FFEB00"; "#FF7A00"; "#AEF35A"; "#028910"]
|}.

Definition setup (tokens : ChartRequest) : Setup := {|
  setup_type := type tokens;
  setup_volume := true;
  tight_layout := true;
  style := s;
  setup_mav := mav tokens;
  scale_width_adjustment := [("lines", "0.8"); ("volume", "0.65")];
  figscale := 1;
  figratio := (10, 5);
  linecolor := "#FFFFFF"
|}.

Definition title (tokens : ChartRequest) : ustring :=
  ticker tokens ++ Py.ustr " (" ++ Py.ustr (range tokens)
  ++ Py.ustr " Range, " ++ Py.ustr (interval tokens) ++ Py.ustr " Interval)".

(** [t[i]] on the tuple of moving averages, and [a[-1]] on the array of
    y values. *)
Definition tuple_index (t : list Z) (i : nat) : result Z :=
  match t !! i with
  | Some x => Ok x
  | None => Raise (IndexError "tuple index out of range")
  end.

Definition last_value (a : list float) : result float :=
  match last a with
  | Some y => Ok y
  | None => Raise (IndexError "index -1 is out of bounds for axis 0 with size 0")
  end.

(** One turn of the loop of line 122 for the index [i]. *)
Definition label_body (tokens : ChartRequest) (ax : Axes float) (i : nat) : M unit :=
  if bool_decide (type tokens = "line")
     && (Z.of_nat i =? Z.of_nat (length (lines ax)) - 1)
  then ret tt
  else
    window <-- lift (tuple_index (mav tokens) i) ;;
    line <-- lift (Py.index (lines ax) i) ;;
    y <-- lift (last_value (ydata line)) ;;
    let MA_string := "MA" +:+ Py.str_int window +:+ ": " +:+ format_2f y in
    color <-- lift (Py.index (mavcolors s) (i mod length (mavcolors s))) ;;
    emit (Text i MA_string color).

(** [for i, _line in enumerate(ax.lines)], from the index [i] on;
    [todo] are the lines not yet visited. *)
Fixpoint label_loop (tokens : ChartRequest) (ax : Axes float)
    (i : nat) (todo : list (Line float)) : M unit :=
  match todo with
  | [] => ret tt
  | _line :: todo' =>
      label_body tokens ax i ;;
      label_loop tokens ax (S i) todo'
  end.

(** Lines 121-130: [if tokens['mav']: for ...]. *)
Definition annotate (tokens : ChartRequest) (ax : Axes float) : M unit :=
  if Py.truthy (mav tokens) then label_loop tokens ax 0 (lines ax) else ret tt.

(** The calls on the figure in memory ([ax.set_title], [ax.text]), the
    writing of the file and the print are recorded when they are made and
    are taken to return; the plot, the indexing of its result and the
    loop of the labels may raise. *)
Definition create_chart (data : DataFrame) (tokens : ChartRequest) : M unit :=
  emit (Plot data (setup tokens)) ;;
  axes <-- lift (mpf_plot data (setup tokens)) ;;
  ax <-- lift (Py.index axes 0) ;;
  emit (SetTitle (title tokens)) ;;
  annotate tokens ax ;;
  emit (Savefig "stock.png") ;;
  emit (Print "Complete").

(** ** The script (lines 138-143) *)

Definition script (input_str : string) : M unit :=
  tokens <-- lift (parse_query input_str) ;;
  data <-- request_data tokens ;;
  create_chart data tokens.

Definition input_str : string := "&stock SPY 2y 1wk candle 5 10 20".

Definition main : M unit := script input_str.

(** The [ax.text] calls of a trace. *)
Definition is_text (ev : event) : bool :=
  match ev with
  | Text _ _ _ => true
  | _ => false
  end.

Definition texts (tr : list event) : list event := filter is_text tr.

(** The label of the moving average of index [i], with window [window]
    and latest value [y]. *)
Definition ma_label (i : nat) (window : Z) (y : float) : event :=
  Text i ("MA" +:+ Py.str_int window +:+ ": " +:+ format_2f y)
         (mavcolors s !!! (i mod length (mavcolors s))%nat).

Definition ma_labels (windows : list Z) (ys : list float) : list event :=
  imap (λ i wy, ma_label i wy.1 wy.2) (zip windows ys).

End Program.

Notation "x <-- m ;; k" := (bind m (fun x => k))
  (at level 100, m at next level, right associativity).
Notation "m ;; k" := (bind m (fun _ => k))
  (at level 100, right associativity).

(** A small world to run the program in: the ticker [NOPE] is not found,
    an empty body is not a table, and the plot has one line for each
    moving average, followed on a line chart by the line of the prices
    (the order that the comment of line 123 expects). *)
Definition test_world : World := {|
  DataFrame := list string;
  float := Z;
  requests_get url _ _ :=
    if bool_decide (url = Py.ustr "https://query1.finance.yahoo.com/v7/finance/download/NOPE?")
    then Ok {| status_code := 404; text := "404 Not Found" |}
    else if bool_decide (url = Py.ustr "https://query1.finance.yahoo.com/v7/finance/download/VOID?")
    then Ok {| status_code := 200; text := "" |}
    else Ok {| status_code := 200; text := "Date,Open,High,Low,Close,Volume" |};
  read_csv body :=
    if bool_decide (body = "")
    then Raise (LibraryError "No columns to parse from file")
    else Ok (Py.split ","%char body);
  mpf_plot data setup :=
    Ok [ {| lines :=
              ((λ w, {| ydata := [w; w + 1] |}) <$> setup_mav setup)
              ++ (if bool_decide (setup_type setup = "line")
                  then [ {| ydata := [100] |} ] else []) |} ];
  format_2f y := Py.str_int y +:+ ".00"
|}.

(** A world without network: every GET raises. *)
Definition offline_world : World := {|
  DataFrame := list string;
  float := Z;
  requests_get _ _ _ := Raise (LibraryError "ConnectionError");
  read_csv body := Ok [body];
  mpf_plot _ _ := Ok [];
  format_2f y := Py.str_int y
|}.

(** A world whose plot gives back what it is told to. *)
Definition canned_world (plot_result : result (list (Axes Z))) : World := {|
  DataFrame := list string;
  float := Z;
  requests_get _ _ _ := Ok {| status_code := 200; text := "Date,Close" |};
  read_csv body := Ok (Py.split ","%char body);
  mpf_plot _ _ := plot_result;
  format_2f y := Py.str_int y +:+ ".00"
|}.


Definition hollow_line_world : World :=
  canned_world (Ok [ {| lines := [ {| ydata := [7] |}; {| ydata := [] |} ] |} ]).

(** A world whose plot draws a line chart as the plotting library does:
    the line of the closing prices first, then one line for each moving
    average.  The closing prices are 104, 106, 108; their means over 2
    are 105, 107 and their mean over 3 is 106. *)
Definition price_first_world : World :=
  canned_world
    (Ok [ {| lines := [ {| ydata := [104; 106; 108] |};
                        {| ydata := [105; 107] |};
                        {| ydata := [106] |} ] |} ]).

Definition failing_plot_world : World :=
  canned_world (Raise (LibraryError "Zero-size array")).

(** ** Vocabulary of the properties *)

Definition fails {A} (r : result A) : Prop := ∃ e, r = Raise e.

(** The characters of U+0000..U+00FF that [upper] changes: a-z, U+00B5,
    U+00DF..U+00F6, U+00F8..U+00FF. *)
Definition is_lower (cp : N) : bool :=
  ((97 <=? cp) && (cp <=? 122) || (cp =? 181)
   || (223 <=? cp) && (cp <=? 246) || (248 <=? cp) && (cp <=? 255))%N.

(** The uppercase letters of U+0000..U+00FF: A-Z, U+00C0..U+00D6,
    U+00D8..U+00DE. *)
Definition is_upper (cp : N) : bool :=
  ((65 <=? cp) && (cp <=? 90) || (192 <=? cp) && (cp <=? 214)
   || (216 <=? cp) && (cp <=? 222))%N.

Fixpoint all_chars (p : ascii -> bool) (s : string) : bool :=
  match s with
  | EmptyString => true
  | String c s' => p c && all_chars p s'
  end.

(** A non-empty string of uppercase letters. *)
Definition nonempty_uppercase (u : ustring) : bool :=
  negb (bool_decide (u = [])) && forallb is_upper u.

(** How many times the character [c] occurs in [s]. *)
Fixpoint occurs (c : ascii) (s : string) : nat :=
  match s with
  | EmptyString => 0%nat
  | String c' s' => ((if decide (c' = c) then 1 else 0) + occurs c s')%nat
  end.

Definition tab : string := String "009"%char EmptyString.

(** The letter U+00E9 (e with acute accent), and U+00C9, its capital. *)
Definition e_acute : string := String "233"%char EmptyString.
Definition E_acute : string := String "201"%char EmptyString.

(** A string of white space only (possibly empty). *)
Definition blank (s : string) : bool := all_chars Py.isspace s.

(** The GETs of a trace. *)
Definition is_get {W : World} (ev : event) : bool :=
  match ev with
  | Get _ _ _ => true
  | _ => false
  end.

Definition gets {W : World} (tr : list event) : list event := filter is_get tr.

(** * Properties *)

(** ** Indexing, membership and the two passes over the moving averages *)

Lemma index_Some {A} (l : list A) (i : nat) (x : A) :
  l !! i = Some x → Py.index l i = Ok x.
Proof. intros H. unfold Py.index. by rewrite H. Qed.

Lemma index_None {A} (l : list A) (i : nat) :
  l !! i = None → Py.index l i = Raise (IndexError "list index out of range").
Proof. intros H. unfold Py.index. by rewrite H. Qed.

Lemma contains_true (x : string) (l : list string) :
  x ∈ l → Py.contains x l = true.
Proof. intros H. unfold Py.contains. by apply bool_decide_eq_true_2. Qed.

Lemma contains_false (x : string) (l : list string) :
  x ∉ l → Py.contains x l = false.
Proof. intros H. unfold Py.contains. by apply bool_decide_eq_false_2. Qed.

Lemma guarded_check_mav (l : list string) :
  (if Py.truthy l then check_mav l else Ok tt) = check_mav l.
Proof. by destruct l. Qed.

Lemma check_mav_Ok (l : list string) (zs : list Z) :
  Forall2 (λ x z, Py.int x = Ok z) l zs → check_mav l = Ok tt.
Proof.
  induction 1 as [|x z l zs Hx _ IH]; simpl; [done|].
  by rewrite Hx.
Qed.

Lemma check_mav_Raise (l : list string) (x : string) :
  x ∈ l → fails (Py.int x) → check_mav l = Raise (TypeError mav_message).
Proof.
  intros Hin [e He]. induction l as [|y l IH]; [by apply elem_of_nil in Hin|].
  simpl. apply elem_of_cons in Hin as [<-|Hin].
  - by rewrite He.
  - destruct (Py.int y); simpl; auto.
Qed.

Lemma check_mav_cases (l : list string) :
  check_mav l = Ok tt ∨ check_mav l = Raise (TypeError mav_message).
Proof.
  induction l as [|x l IH]; simpl; [by left|].
  destruct (Py.int x); simpl; auto.
Qed.

Lemma int_tuple_Ok (l : list string) (zs : list Z) :
  Forall2 (λ x z, Py.int x = Ok z) l zs → int_tuple l = Ok zs.
Proof.
  induction 1 as [|x z l zs Hx _ IH]; simpl; [done|].
  by rewrite Hx, IH.
Qed.

(** Line 44 cannot raise once the loop of lines 33-37 has gone through. *)
Lemma check_mav_int_tuple (l : list string) :
  check_mav l = Ok tt →
  ∃ zs, Forall2 (λ x z, Py.int x = Ok z) l zs ∧ int_tuple l = Ok zs.
Proof.
  induction l as [|x l IH]; simpl.
  - intros _. exists []. by split.
  - destruct (Py.int x) as [z|e] eqn:Hx; simpl; [|done].
    intros [zs [Hzs Heq]]%IH. exists (z :: zs). split.
    + by constructor.
    + by rewrite Heq.
Qed.

(** Membership in a list that is written out. *)
Ltac in_list :=
  solve [repeat first [apply list_elem_of_here | apply list_elem_of_further]].

(** Rewriting the checks of [parse_query] with what is known of the tokens. *)
Ltac known_tokens :=
  repeat match goal with
    | H : ?t !! ?i = Some _ |- context [Py.index ?t ?i] =>
        rewrite (index_Some _ _ _ H)
    | H : ?t !! ?i = None |- context [Py.index ?t ?i] =>
        rewrite (index_None _ _ H)
    | H : ?x ∈ ?l |- context [Py.contains ?x ?l] =>
        rewrite (contains_true _ _ H)
    | H : ?x ∉ ?l |- context [Py.contains ?x ?l] =>
        rewrite (contains_false _ _ H)
    | |- context [if Py.truthy ?l then check_mav ?l else Ok tt] =>
        rewrite (guarded_check_mav l)
    | |- context [bool_decide (?x = ?x)] =>
        rewrite (bool_decide_eq_true_2 (x = x) eq_refl)
    | |- _ => progress cbn [rbind negb]
    end.

(** Every way [parse_query] can raise. *)
Lemma parse_query_raises (query_str : string) (e : exn) :
  parse_query query_str = Raise e →
  e ∈ [TypeError usage; TypeError ranges_message; TypeError intervals_message;
       TypeError types_message; TypeError mav_message;
       IndexError "list index out of range"].
Proof.
  unfold parse_query. generalize (tokenize query_str) as t. intros t.
  destruct (t !! 0%nat) as [t0|] eqn:H0; known_tokens; [|intros [= <-]; in_list].
  case_bool_decide; cbn [negb]; [|intros [= <-]; in_list].
  destruct (t !! 2%nat) as [t2|] eqn:H2; known_tokens; [|intros [= <-]; in_list].
  destruct (Py.contains t2 valid_ranges); cbn [negb]; [|intros [= <-]; in_list].
  destruct (t !! 3%nat) as [t3|] eqn:H3; known_tokens; [|intros [= <-]; in_list].
  destruct (Py.contains t3 valid_intervals); cbn [negb]; [|intros [= <-]; in_list].
  destruct (t !! 4%nat) as [t4|] eqn:H4; known_tokens; [|intros [= <-]; in_list].
  destruct (Py.contains t4 valid_types); cbn [negb]; [|intros [= <-]; in_list].
  destruct (check_mav_cases (drop 5 t)) as [Hc|Hc].
  - destruct (check_mav_int_tuple _ Hc) as [zs [_ Hzs]].
    rewrite Hc, Hzs. cbn [rbind].
    destruct (t !! 1%nat) as [t1|] eqn:H1; known_tokens; [done|].
    intros [= <-]; in_list.
  - rewrite Hc. cbn [rbind]. intros [= <-]; in_list.
Qed.

(** ** Tokens *)

Lemma split_cons (sep : ascii) (s : string) :
  ∃ t ts, Py.split sep s = t :: ts.
Proof.
  induction s as [|c s [t [ts IH]]]; simpl; [by eauto|].
  case_decide; [by eauto|]. rewrite IH. by eauto.
Qed.

Lemma tokenize_head (query_str : string) :
  ∃ t0, tokenize query_str !! 0%nat = Some t0.
Proof.
  unfold tokenize.
  destruct (split_cons " " (Py.strip query_str)) as [t [ts ->]]. by eauto.
Qed.

Lemma join_cons (sep x : string) (y : string) (l : list string) :
  Py.join sep (x :: y :: l) = x +:+ sep +:+ Py.join sep (y :: l).
Proof. reflexivity. Qed.

Lemma join_split (sep : ascii) (s : string) :
  Py.join (String sep EmptyString) (Py.split sep s) = s.
Proof.
  induction s as [|c s IH]; [done|]. simpl Py.split.
  destruct (split_cons sep s) as [t [ts Hs]]. rewrite Hs in *.
  case_decide as Hc.
  - rewrite join_cons, IH. by subst c.
  - destruct ts as [|t' ts]; simpl in *; by rewrite <- IH.
Qed.

Lemma length_split (sep : ascii) (s : string) :
  length (Py.split sep s) = S (occurs sep s).
Proof.
  induction s as [|c s IH]; [done|]. simpl.
  destruct (split_cons sep s) as [t [ts Hs]]. rewrite Hs in *.
  case_decide; simpl in *; lia.
Qed.

Lemma split_no_sep (sep : ascii) (s : string) :
  Forall (λ t, occurs sep t = 0%nat) (Py.split sep s).
Proof.
  induction s as [|c s IH]; simpl; [by repeat constructor|].
  destruct (split_cons sep s) as [t [ts Hs]]. rewrite Hs in *.
  apply Forall_cons in IH as [Ht Hts].
  case_decide as Hc.
  - by repeat constructor.
  - constructor; [|done]. simpl. by rewrite decide_False.
Qed.

(** ** Upper-casing *)

Lemma upper_char_not_lower (c : ascii) :
  forallb (λ cp, negb (is_lower cp)) (Py.upper_char c) = true.
Proof. destruct c as [[] [] [] [] [] [] [] []]; reflexivity. Qed.

Lemma upper_no_lower (s : string) :
  forallb (λ cp, negb (is_lower cp)) (Py.upper s) = true.
Proof.
  induction s as [|c s IH]; [done|]. simpl.
  by rewrite forallb_app, upper_char_not_lower, IH.
Qed.

(** ** The parser *)

(** C1. The command ["&stock spy 2y 1wk candle 5 10 20"] parses: the
    ticker is the second token in upper case, ["SPY"]; the range ["2y"],
    the interval ["1wk"] and the type ["candle"] are the tokens as
    written; the moving averages are 5, 10, 20 in this order. *)
Theorem parse_spy_round_trip :
  parse_query "&stock spy 2y 1wk candle 5 10 20"
  = Ok {| ticker := Py.ustr "SPY"; range := "2y"; interval := "1wk";
          type := "candle"; mav := [5; 10; 20] |}.
Proof. vm_compute. reflexivity. Qed.

(** C2. The checks are made in the order sentinel, range, interval, type,
    moving averages, and the first one a token violates gives the error:
    a wrong sentinel gives the usage message whatever follows; with the
    sentinel right, a range token outside [valid_ranges] gives the ranges
    message whatever the interval and type tokens are (or even if they are
    missing); then the same for the interval, for the type, and at last
    for the moving averages. *)
Theorem validation_order (query_str : string) :
  let t := tokenize query_str in
  (t !! 0%nat ≠ Some "&stock" →
     parse_query query_str = Raise (TypeError usage))
  ∧ (∀ r, t !! 0%nat = Some "&stock" →
       t !! 2%nat = Some r → r ∉ valid_ranges →
       parse_query query_str = Raise (TypeError ranges_message))
  ∧ (∀ r i, t !! 0%nat = Some "&stock" →
       t !! 2%nat = Some r → r ∈ valid_ranges →
       t !! 3%nat = Some i → i ∉ valid_intervals →
       parse_query query_str = Raise (TypeError intervals_message))
  ∧ (∀ r i ty, t !! 0%nat = Some "&stock" →
       t !! 2%nat = Some r → r ∈ valid_ranges →
       t !! 3%nat = Some i → i ∈ valid_intervals →
       t !! 4%nat = Some ty → ty ∉ valid_types →
       parse_query query_str = Raise (TypeError types_message))
  ∧ (∀ r i ty x, t !! 0%nat = Some "&stock" →
       t !! 2%nat = Some r → r ∈ valid_ranges →
       t !! 3%nat = Some i → i ∈ valid_intervals →
       t !! 4%nat = Some ty → ty ∈ valid_types →
       x ∈ drop 5 t → fails (Py.int x) →
       parse_query query_str = Raise (TypeError mav_message)).
Proof.
  intros t. unfold parse_query. fold t.
  repeat split.
  - intros Hne. destruct (tokenize_head query_str) as [t0 H0]. fold t in H0.
    known_tokens. rewrite bool_decide_eq_false_2; [done|].
    intros ->. by apply Hne.
  - intros r H0 H2 Hr. by known_tokens.
  - intros r i H0 H2 Hr H3 Hi. by known_tokens.
  - intros r i ty H0 H2 Hr H3 Hi H4 Hty. by known_tokens.
  - intros r i ty x H0 H2 Hr H3 Hi H4 Hty Hx Hint. known_tokens.
    by rewrite (check_mav_Raise _ _ Hx Hint).
Qed.

(** Deciding membership in one of the three enumerations. *)
Ltac by_decide := apply (bool_decide_unpack _); vm_compute; exact I.

Lemma validation_order_witness :
  parse_query "&stock AAPL 3y 7m bar x" = Raise (TypeError ranges_message)
  ∧ parse_query "&stock AAPL 1y 7m bar x" = Raise (TypeError intervals_message)
  ∧ parse_query "stock AAPL 3y 7m bar x" = Raise (TypeError usage).
Proof.
  split; [|split].
  - apply (proj1 (proj2 (validation_order "&stock AAPL 3y 7m bar x")) "3y");
      [reflexivity | reflexivity | by_decide].
  - apply (proj1 (proj2 (proj2 (validation_order "&stock AAPL 1y 7m bar x")))
             "1y" "7m");
      [reflexivity | reflexivity | by_decide | reflexivity | by_decide].
  - apply (proj1 (validation_order "stock AAPL 3y 7m bar x")). discriminate.
Defined.

(** C3. A command that starts with the sentinel and has fewer than five
    tokens does not end in the error of the parser: the unguarded
    [query_tokens[2]], [query_tokens[3]] or [query_tokens[4]] raises
    [IndexError]. *)
Theorem short_command_IndexError :
  parse_query "&stock" = Raise (IndexError "list index out of range")
  ∧ parse_query "&stock AAPL" = Raise (IndexError "list index out of range")
  ∧ parse_query "&stock AAPL 1y" = Raise (IndexError "list index out of range")
  ∧ parse_query "&stock AAPL 1y 1d" = Raise (IndexError "list index out of range").
Proof. repeat split; vm_compute; reflexivity. Qed.

(** C4. With the sentinel, range, interval and type tokens valid, one
    token from the sixth on that [int] refuses is enough for the whole
    command to be refused with the moving-average error: no request is
    returned, whatever the other trailing tokens are. *)
Theorem mav_all_or_nothing (query_str r i ty x : string) :
  tokenize query_str !! 0%nat = Some "&stock" →
  tokenize query_str !! 2%nat = Some r → r ∈ valid_ranges →
  tokenize query_str !! 3%nat = Some i → i ∈ valid_intervals →
  tokenize query_str !! 4%nat = Some ty → ty ∈ valid_types →
  x ∈ drop 5 (tokenize query_str) → fails (Py.int x) →
  parse_query query_str = Raise (TypeError mav_message).
Proof.
  intros H0 H2 Hr H3 Hi H4 Hty Hx Hint.
  unfold parse_query. known_tokens.
  by rewrite (check_mav_Raise _ _ Hx Hint).
Qed.

Lemma mav_all_or_nothing_witness :
  parse_query "&stock AAPL 1y 1d candle 5 1.5 20"
  = Raise (TypeError mav_message).
Proof.
  apply (mav_all_or_nothing "&stock AAPL 1y 1d candle 5 1.5 20"
           "1y" "1d" "candle" "1.5");
    [reflexivity | reflexivity | by_decide | reflexivity | by_decide
    | reflexivity | by_decide | by_decide | by eexists].
Defined.

(** C5. With the sentinel, range, interval and type tokens valid and every
    token from the sixth on accepted by [int], the command parses; the
    moving averages are the values of these tokens in their order,
    whatever they are (zero, negative or repeated), and the ticker is the
    second token in upper case, whatever it is. *)
Theorem valid_command_parses (query_str t1 r i ty : string) (zs : list Z) :
  tokenize query_str !! 0%nat = Some "&stock" →
  tokenize query_str !! 1%nat = Some t1 →
  tokenize query_str !! 2%nat = Some r → r ∈ valid_ranges →
  tokenize query_str !! 3%nat = Some i → i ∈ valid_intervals →
  tokenize query_str !! 4%nat = Some ty → ty ∈ valid_types →
  Forall2 (λ x z, Py.int x = Ok z) (drop 5 (tokenize query_str)) zs →
  parse_query query_str
  = Ok {| ticker := Py.upper t1; range := r; interval := i; type := ty;
          mav := zs |}.
Proof.
  intros H0 H1 H2 Hr H3 Hi H4 Hty Hzs.
  unfold parse_query. known_tokens.
  rewrite (check_mav_Ok _ _ Hzs), (int_tuple_Ok _ _ Hzs). by known_tokens.
Qed.

Lemma valid_command_parses_witness :
  parse_query "&stock $?! max 90m line 0 -3 7 7 +1_0"
  = Ok {| ticker := Py.ustr "$?!"; range := "max"; interval := "90m"; type := "line";
          mav := [0; -3; 7; 7; 10] |}.
Proof.
  apply (valid_command_parses "&stock $?! max 90m line 0 -3 7 7 +1_0"
           "$?!" "max" "90m" "line" [0; -3; 7; 7; 10]);
    [reflexivity | reflexivity | reflexivity | by_decide | reflexivity
    | by_decide | reflexivity | by_decide | ].
  change (Forall2 (λ x z, Py.int x = Ok z) ["0"; "-3"; "7"; "7"; "+1_0"]
            [0; -3; 7; 7; 10]).
  repeat (constructor; [reflexivity|]). constructor.
Defined.

(** C6, as stated, fails: with two spaces after the sentinel the ticker
    is the empty string, and a ticker token of digits stays as it is. *)
Lemma ticker_nonempty_uppercase_counterexample :
  parse_query "&stock  1y 1d line"
  = Ok {| ticker := Py.ustr ""; range := "1y"; interval := "1d"; type := "line";
          mav := [] |}
  ∧ parse_query "&stock 600519.ss 1y 1d line"
    = Ok {| ticker := Py.ustr "600519.SS"; range := "1y"; interval := "1d";
            type := "line"; mav := [] |}
  ∧ nonempty_uppercase (Py.ustr "") = false
  ∧ nonempty_uppercase (Py.ustr "600519.SS") = false
  ∧ ¬ (∀ query_str tokens, parse_query query_str = Ok tokens →
         nonempty_uppercase (ticker tokens) = true).
Proof.
  split; [vm_compute; reflexivity|].
  split; [vm_compute; reflexivity|].
  split; [reflexivity|]. split; [reflexivity|].
  intros H.
  specialize (H "&stock  1y 1d line"
                {| ticker := Py.ustr ""; range := "1y"; interval := "1d";
                   type := "line"; mav := [] |} eq_refl).
  discriminate H.
Qed.

(** C6, amended. When parsing succeeds the ticker is the second token of
    the command in upper case, as [str.upper] makes it (so U+00E9 becomes
    U+00C9 and U+00DF becomes SS): it has no letter from [a] to [z] and
    no other character below U+0100 that upper-casing changes.  (It may
    be empty, and it may hold characters that are not letters.) *)
Theorem ticker_is_upper_of_token (query_str : string) (tokens : ChartRequest) :
  parse_query query_str = Ok tokens →
  ∃ t1, tokenize query_str !! 1%nat = Some t1
        ∧ ticker tokens = Py.upper t1
        ∧ forallb (λ cp, negb (is_lower cp)) (ticker tokens) = true.
Proof.
  unfold parse_query. generalize (tokenize query_str) as t. intros t.
  destruct (t !! 0%nat) as [t0|] eqn:H0; known_tokens; [|done].
  case_bool_decide; cbn [negb]; [|done].
  destruct (t !! 2%nat) as [t2|] eqn:H2; known_tokens; [|done].
  destruct (Py.contains t2 valid_ranges); cbn [negb]; [|done].
  destruct (t !! 3%nat) as [t3|] eqn:H3; known_tokens; [|done].
  destruct (Py.contains t3 valid_intervals); cbn [negb]; [|done].
  destruct (t !! 4%nat) as [t4|] eqn:H4; known_tokens; [|done].
  destruct (Py.contains t4 valid_types); cbn [negb]; [|done].
  destruct (check_mav (drop 5 t)) as [[]|]; cbn [rbind]; [|done].
  destruct (t !! 1%nat) as [t1|] eqn:H1; known_tokens; [|done].
  destruct (int_tuple (drop 5 t)) as [zs|]; cbn [rbind]; [|done].
  intros [= <-]. exists t1. cbn [ticker].
  auto using upper_no_lower.
Qed.

Lemma ticker_is_upper_of_token_witness :
  ∃ t1, tokenize ("&stock caf" +:+ e_acute +:+ ".b 5y 1mo candle") !! 1%nat
        = Some t1
        ∧ [67; 65; 70; 201; 46; 66]%N = Py.upper t1
        ∧ forallb (λ cp, negb (is_lower cp)) [67; 65; 70; 201; 46; 66]%N = true.
Proof.
  apply (ticker_is_upper_of_token
           ("&stock caf" +:+ e_acute +:+ ".b 5y 1mo candle")
           {| ticker := [67; 65; 70; 201; 46; 66]%N; range := "5y";
              interval := "1mo"; type := "candle"; mav := [] |}).
  vm_compute. reflexivity.
Defined.

(** C10. The command is stripped and then cut at every single space and
    nowhere else: joining the tokens with one space gives back the
    stripped command, there is one token more than there are spaces, and
    no token holds a space.  So two spaces in a row give an empty token
    that takes a place of the grammar (after the sentinel it is the
    ticker, and the command parses), and a tab separates nothing. *)
Theorem tokenize_single_spaces :
  (∀ query_str, Py.join " " (tokenize query_str) = Py.strip query_str)
  ∧ (∀ query_str,
       length (tokenize query_str) = S (occurs " " (Py.strip query_str)))
  ∧ (∀ query_str,
       Forall (λ t, occurs " " t = 0%nat) (tokenize query_str))
  ∧ tokenize "&stock  1y 1d line" = ["&stock"; ""; "1y"; "1d"; "line"]
  ∧ parse_query "&stock  1y 1d line"
    = Ok {| ticker := Py.ustr ""; range := "1y"; interval := "1d"; type := "line";
            mav := [] |}
  ∧ tokenize ("&stock" +:+ tab +:+ "AAPL 1y 1d line")
    = ["&stock" +:+ tab +:+ "AAPL"; "1y"; "1d"; "line"]
  ∧ parse_query ("&stock" +:+ tab +:+ "AAPL 1y 1d line")
    = Raise (TypeError usage).
Proof.
  split; [|split; [|split]].
  - intros q. apply join_split.
  - intros q. apply length_split.
  - intros q. apply split_no_sep.
  - repeat split; vm_compute; reflexivity.
Qed.

(** ** The fetcher and the renderer *)

Section Effects.
Context {W : World}.

Lemma bind_ret {A B} (a : A) (k : A → M B) : (x <-- ret a ;; k x) = k a.
Proof. unfold bind, ret. by destruct (k a). Qed.

Lemma bind_lift_Ok {A B} (a : A) (k : A → M B) :
  (x <-- lift (Ok a) ;; k x) = k a.
Proof. apply bind_ret. Qed.

Lemma bind_lift_Raise {A B} (e : exn) (k : A → M B) :
  (x <-- lift (Raise e) ;; k x) = raise e.
Proof. reflexivity. Qed.

Lemma bind_emit {B} (ev : event) (k : unit → M B) :
  (x <-- emit ev ;; k x) = (ev :: trace (k tt), outcome (k tt)).
Proof. unfold bind, emit. by destruct (k tt). Qed.

Lemma request_data_not_found (tokens : ChartRequest) (response : Response) :
  requests_get (stock_url (ticker tokens)) headers (request_params tokens)
  = Ok response →
  status_code response = 404 →
  request_data tokens
  = ([Get (stock_url (ticker tokens)) headers (request_params tokens)],
     Raise error_404).
Proof.
  intros Hget H404. unfold request_data.
  rewrite bind_emit, Hget, bind_lift_Ok, H404. reflexivity.
Qed.

Lemma request_data_found (tokens : ChartRequest) (response : Response) :
  requests_get (stock_url (ticker tokens)) headers (request_params tokens)
  = Ok response →
  status_code response ≠ 404 →
  request_data tokens
  = ([Get (stock_url (ticker tokens)) headers (request_params tokens);
      ReadCsv (text response)],
     read_csv (text response)).
Proof.
  intros Hget H404. unfold request_data.
  rewrite bind_emit, Hget, bind_lift_Ok.
  apply Z.eqb_neq in H404. rewrite H404, bind_emit. reflexivity.
Qed.

(** C7. When the response to the one GET has the status 404, the fetch
    ends at once with the error of the 404 message: the body is not given
    to [read_csv], and the script that called it stops there, before any
    call to the plot.  With any other status the body is given to
    [read_csv], and the fetch ends as [read_csv] does, a failure of it
    included. *)
Theorem fetch_404_or_csv (tokens : ChartRequest) (response : Response) :
  requests_get (stock_url (ticker tokens)) headers (request_params tokens)
  = Ok response →
  (status_code response = 404 →
     request_data tokens
     = ([Get (stock_url (ticker tokens)) headers (request_params tokens)],
        Raise error_404)
     ∧ ∀ query_str, parse_query query_str = Ok tokens →
         script query_str
         = ([Get (stock_url (ticker tokens)) headers (request_params tokens)],
            Raise error_404))
  ∧ (status_code response ≠ 404 →
     request_data tokens
     = ([Get (stock_url (ticker tokens)) headers (request_params tokens);
         ReadCsv (text response)],
        read_csv (text response))).
Proof.
  intros Hget. split.
  - intros H404. split; [by apply request_data_not_found with response|].
    intros q Hq. unfold script.
    rewrite Hq, bind_lift_Ok.
    by rewrite (request_data_not_found _ _ Hget H404).
  - intros H404. by apply request_data_found.
Qed.

(** C8. With no moving average the block of the labels does nothing,
    whatever lines the axes hold: the loop is not entered, and the trace
    of the whole rendering has no [ax.text] call. *)
Theorem no_mav_no_label (tokens : ChartRequest) :
  mav tokens = [] →
  (∀ ax, annotate tokens ax = ret tt)
  ∧ (∀ data, texts (trace (create_chart data tokens)) = []).
Proof.
  intros Hmav. split.
  - intros ax. unfold annotate. by rewrite Hmav.
  - intros data. unfold create_chart. rewrite bind_emit.
    destruct (mpf_plot data (setup tokens)) as [axes|e]; [|done].
    rewrite bind_lift_Ok.
    destruct (Py.index axes 0) as [ax|e]; [|done].
    rewrite bind_lift_Ok, bind_emit.
    unfold annotate. rewrite Hmav. cbn [Py.truthy].
    rewrite bind_ret. reflexivity.
Qed.


Lemma mavcolors_lookup (i : nat) :
  Py.index (mavcolors s) (i mod length (mavcolors s))
  = Ok (mavcolors s !!! (i mod length (mavcolors s))%nat).
Proof.
  apply index_Some, list_lookup_lookup_total_lt.
  apply Nat.mod_upper_bound. done.
Qed.

End Effects.

(** ** The fetcher and the renderer in the test worlds *)

Lemma fetch_404_or_csv_witness :
  script (W:=test_world) "&stock nope 1y 1d candle 5"
  = ([Get (Py.ustr "https://query1.finance.yahoo.com/v7/finance/download/NOPE?") headers
        [("range", "1y"); ("interval", "1d"); ("events", "history")]],
     Raise error_404)
  ∧ request_data (W:=test_world)
      {| ticker := Py.ustr "VOID"; range := "1y"; interval := "1d"; type := "candle";
         mav := [] |}
    = ([Get (Py.ustr "https://query1.finance.yahoo.com/v7/finance/download/VOID?") headers
          [("range", "1y"); ("interval", "1d"); ("events", "history")];
        ReadCsv ""],
       Raise (LibraryError "No columns to parse from file")).
Proof.
  split.
  - apply (proj1 (fetch_404_or_csv (W:=test_world)
                    {| ticker := Py.ustr "NOPE"; range := "1y"; interval := "1d";
                       type := "candle"; mav := [5] |}
                    {| status_code := 404; text := "404 Not Found" |}
                    eq_refl)); [reflexivity|].
    vm_compute. reflexivity.
  - apply (proj2 (fetch_404_or_csv (W:=test_world)
                    {| ticker := Py.ustr "VOID"; range := "1y"; interval := "1d";
                       type := "candle"; mav := [] |}
                    {| status_code := 200; text := "" |}
                    eq_refl)).
    discriminate.
Defined.

Lemma no_mav_no_label_witness :
  parse_query "&stock AAPL 1y 1d line"
  = Ok {| ticker := Py.ustr "AAPL"; range := "1y"; interval := "1d"; type := "line";
          mav := [] |}
  ∧ annotate (W:=test_world)
      {| ticker := Py.ustr "AAPL"; range := "1y"; interval := "1d"; type := "line";
         mav := [] |}
      {| lines := [ {| ydata := [100] |} ] |}
    = ([], Ok tt)
  ∧ texts (trace (create_chart (W:=test_world) ["Date"; "Close"]
                    {| ticker := Py.ustr "AAPL"; range := "1y"; interval := "1d";
                       type := "line"; mav := [] |}))
    = [].
Proof.
  split; [vm_compute; reflexivity|].
  pose proof (no_mav_no_label (W:=test_world)
                {| ticker := Py.ustr "AAPL"; range := "1y"; interval := "1d";
                   type := "line"; mav := [] |} eq_refl) as [Hloop Htexts].
  split; [apply Hloop | apply Htexts].
Defined.

(** C9. The loop skips the last line of the axes because, so the comment
    of line 123, that line is the line of the prices.  The plot draws the
    prices first and the moving averages after them.  On a line chart of
    the closing prices 104, 106, 108 with the windows 2 and 3 the axes
    hold the lines of the prices, of the means over 2 and of the means
    over 3, in this order: the label [MA2] shows 108, the last price,
    the label [MA3] shows 107, the last mean over 2, and the line that is
    skipped is the one of the means over 3.  The labels of the moving
    averages themselves would read 107 and 106. *)
Theorem price_line_labelled_as_average :
  create_chart (W:=price_first_world) ["Date"; "Close"]
    {| ticker := Py.ustr "SPY"; range := "2y"; interval := "1wk";
       type := "line"; mav := [2; 3] |}
  = ([Plot (W:=price_first_world) ["Date"; "Close"]
        (setup {| ticker := Py.ustr "SPY"; range := "2y"; interval := "1wk";
                  type := "line"; mav := [2; 3] |});
      SetTitle (Py.ustr "SPY (2y Range, 1wk Interval)");
      Text 0 "MA2: 108.00" "#5662f6";
      Text 1 "MA3: 107.00" "#FFEB00";
      Savefig "stock.png"; Print "Complete"],
     Ok tt)
  ∧ texts (trace (create_chart (W:=price_first_world) ["Date"; "Close"]
                    {| ticker := Py.ustr "SPY"; range := "2y";
                       interval := "1wk"; type := "line"; mav := [2; 3] |}))
    ≠ ma_labels (W:=price_first_world) [2; 3] [107; 106].
Proof. split; [vm_compute; reflexivity|]. vm_compute. discriminate. Qed.

(** * Further properties of the three functions and of the script *)

(** ** parse_query: what a returned request tells, and when an index fails *)

(** Everything a successful run of [parse_query] went through. *)
Lemma parse_query_Ok_inv (query_str : string) (tokens : ChartRequest) :
  parse_query query_str = Ok tokens →
  ∃ t1,
    tokenize query_str !! 0%nat = Some "&stock"
    ∧ tokenize query_str !! 1%nat = Some t1
    ∧ ticker tokens = Py.upper t1
    ∧ tokenize query_str !! 2%nat = Some (range tokens)
    ∧ range tokens ∈ valid_ranges
    ∧ tokenize query_str !! 3%nat = Some (interval tokens)
    ∧ interval tokens ∈ valid_intervals
    ∧ tokenize query_str !! 4%nat = Some (type tokens)
    ∧ type tokens ∈ valid_types
    ∧ Forall2 (λ x z, Py.int x = Ok z) (drop 5 (tokenize query_str)) (mav tokens).
Proof.
  unfold parse_query. generalize (tokenize query_str) as t. intros t.
  destruct (t !! 0%nat) as [t0|] eqn:H0; known_tokens; [|done].
  case_bool_decide as Ht0; cbn [negb]; [subst t0|done].
  destruct (t !! 2%nat) as [t2|] eqn:H2; known_tokens; [|done].
  unfold Py.contains at 1. case_bool_decide as Hr; cbn [negb]; [|done].
  destruct (t !! 3%nat) as [t3|] eqn:H3; known_tokens; [|done].
  unfold Py.contains at 1. case_bool_decide as Hi; cbn [negb]; [|done].
  destruct (t !! 4%nat) as [t4|] eqn:H4; known_tokens; [|done].
  unfold Py.contains at 1. case_bool_decide as Hty; cbn [negb]; [|done].
  destruct (check_mav (drop 5 t)) as [[]|] eqn:Hc; cbn [rbind]; [|done].
  destruct (check_mav_int_tuple _ Hc) as [zs [Hzs Heq]].
  destruct (t !! 1%nat) as [t1|] eqn:H1; known_tokens; [|done].
  rewrite Heq. cbn [rbind]. intros [= <-]. exists t1. by cbn.
Qed.

(** X1. Whatever the command, an exception of [parse_query] is one of
    the five [TypeError]s of the checks or the [IndexError] of a missing
    token; the [ValueError] of the [int] of line 44 never leaves it. *)
Theorem parse_query_exceptions (query_str : string) (e : exn) :
  parse_query query_str = Raise e →
  e ∈ [TypeError usage; TypeError ranges_message; TypeError intervals_message;
       TypeError types_message; TypeError mav_message;
       IndexError "list index out of range"].
Proof. apply parse_query_raises. Qed.

Lemma parse_query_exceptions_witness :
  TypeError types_message
  ∈ [TypeError usage; TypeError ranges_message; TypeError intervals_message;
     TypeError types_message; TypeError mav_message;
     IndexError "list index out of range"].
Proof.
  apply (parse_query_exceptions "&stock AAPL 1y 1d bar").
  vm_compute. reflexivity.
Defined.

(** X2. A returned request bears witness of a whole valid command: the
    first token was the sentinel, the range, the interval and the type of
    the request are the tokens 2, 3 and 4 and belong to their
    enumerations, every token from the sixth on was accepted by [int] and
    gave the moving average of the same position, and the command had
    exactly five tokens more than the request has moving averages. *)
Theorem returned_request_is_validated (query_str : string) (tokens : ChartRequest) :
  parse_query query_str = Ok tokens →
  tokenize query_str !! 0%nat = Some "&stock"
  ∧ tokenize query_str !! 2%nat = Some (range tokens)
  ∧ range tokens ∈ valid_ranges
  ∧ tokenize query_str !! 3%nat = Some (interval tokens)
  ∧ interval tokens ∈ valid_intervals
  ∧ tokenize query_str !! 4%nat = Some (type tokens)
  ∧ type tokens ∈ valid_types
  ∧ Forall2 (λ x z, Py.int x = Ok z) (drop 5 (tokenize query_str)) (mav tokens)
  ∧ length (tokenize query_str) = (5 + length (mav tokens))%nat.
Proof.
  intros (t1 & H0 & H1 & _ & H2 & Hr & H3 & Hi & H4 & Hty & Hmav)%parse_query_Ok_inv.
  repeat split; try done.
  apply Forall2_length in Hmav. rewrite length_drop in Hmav.
  apply lookup_lt_Some in H4. lia.
Qed.

Lemma returned_request_is_validated_witness :
  tokenize "  &stock msft ytd 1h line 12 26  " !! 0%nat = Some "&stock"
  ∧ tokenize "  &stock msft ytd 1h line 12 26  " !! 2%nat = Some "ytd"
  ∧ "ytd" ∈ valid_ranges
  ∧ tokenize "  &stock msft ytd 1h line 12 26  " !! 3%nat = Some "1h"
  ∧ "1h" ∈ valid_intervals
  ∧ tokenize "  &stock msft ytd 1h line 12 26  " !! 4%nat = Some "line"
  ∧ "line" ∈ valid_types
  ∧ Forall2 (λ x z, Py.int x = Ok z)
      (drop 5 (tokenize "  &stock msft ytd 1h line 12 26  ")) [12; 26]
  ∧ length (tokenize "  &stock msft ytd 1h line 12 26  ") = 7%nat.
Proof.
  apply (returned_request_is_validated "  &stock msft ytd 1h line 12 26  "
           {| ticker := Py.ustr "MSFT"; range := "ytd"; interval := "1h";
              type := "line"; mav := [12; 26] |}).
  vm_compute. reflexivity.
Defined.

(** X3. [parse_query] raises [IndexError] exactly on the commands that
    start with the sentinel and stop short: there is no third token, or
    the third token is a valid range and there is no fourth, or the third
    and the fourth are valid and there is no fifth.  (A short command
    whose last token is invalid gets the message of that token.) *)
Theorem IndexError_iff_short_command (query_str : string) :
  let t := tokenize query_str in
  parse_query query_str = Raise (IndexError "list index out of range")
  ↔ t !! 0%nat = Some "&stock"
    ∧ (t !! 2%nat = None
       ∨ ∃ r, t !! 2%nat = Some r ∧ r ∈ valid_ranges
              ∧ (t !! 3%nat = None
                 ∨ ∃ i, t !! 3%nat = Some i ∧ i ∈ valid_intervals
                        ∧ t !! 4%nat = None)).
Proof.
  intros t. destruct (tokenize_head query_str) as [t0 H0]. fold t in H0.
  unfold parse_query. fold t. known_tokens.
  case_bool_decide as Ht0; cbn [negb]; [subst t0|naive_solver].
  destruct (t !! 2%nat) as [t2|] eqn:H2; known_tokens; [|naive_solver].
  unfold Py.contains at 1. case_bool_decide as Hr; cbn [negb]; [|naive_solver].
  destruct (t !! 3%nat) as [t3|] eqn:H3; known_tokens; [|naive_solver].
  unfold Py.contains at 1. case_bool_decide as Hi; cbn [negb]; [|naive_solver].
  destruct (t !! 4%nat) as [t4|] eqn:H4; known_tokens; [|naive_solver].
  unfold Py.contains at 1. case_bool_decide as Hty; cbn [negb]; [|naive_solver].
  destruct (t !! 1%nat) as [t1|] eqn:H1.
  2:{ apply lookup_ge_None in H1. apply lookup_lt_Some in H2. lia. }
  destruct (check_mav_cases (drop 5 t)) as [Hc|Hc]; rewrite Hc; cbn [rbind];
    [|naive_solver].
  destruct (check_mav_int_tuple _ Hc) as [zs [_ Hzs]].
  known_tokens. rewrite Hzs. cbn [rbind]. naive_solver.
Qed.

Lemma IndexError_iff_short_command_witness :
  parse_query "&stock tsla 5d 15m" = Raise (IndexError "list index out of range")
  ∧ parse_query "&stock tsla 5d 15" ≠ Raise (IndexError "list index out of range").
Proof.
  split.
  - apply (IndexError_iff_short_command "&stock tsla 5d 15m").
    split; [reflexivity|]. right. exists "5d".
    split; [reflexivity|]. split; [by_decide|]. right. exists "15m".
    split; [reflexivity|]. split; [by_decide|reflexivity].
  - intros H. apply (IndexError_iff_short_command "&stock tsla 5d 15") in H.
    destruct H as [_ [H|(r & Hr & _ & [H|(i & Hi & Hin & _)])]];
      try discriminate H.
    injection Hi as <-. revert Hin. by_decide.
Defined.

(** ** parse_query: white space around the command, spaces inside the ticker *)

Lemma lstrip_blank_app (l x : string) :
  blank l = true → Py.lstrip (l +:+ x) = Py.lstrip x.
Proof.
  induction l as [|c l IH]; [done|]. simpl.
  intros [Hc Hl]%andb_true_iff. rewrite Hc. by apply IH.
Qed.

Lemma lstrip_blank (r : string) : blank r = true → Py.lstrip r = "".
Proof.
  induction r as [|c r IH]; [done|]. simpl.
  intros [Hc Hr]%andb_true_iff. rewrite Hc. by apply IH.
Qed.

Lemma rstrip_blank (r : string) : blank r = true → Py.rstrip r = "".
Proof.
  induction r as [|c r IH]; [done|]. simpl.
  intros [Hc Hr]%andb_true_iff. by rewrite (IH Hr), Hc.
Qed.

Lemma rstrip_app_blank (x r : string) :
  blank r = true → Py.rstrip (x +:+ r) = Py.rstrip x.
Proof.
  intros Hr. induction x as [|c x IH]; simpl.
  - by apply rstrip_blank.
  - by rewrite IH.
Qed.

Lemma strip_app_blank (x r : string) :
  blank r = true → Py.strip (x +:+ r) = Py.strip x.
Proof.
  intros Hr. unfold Py.strip. induction x as [|c x IH]; simpl.
  - change (Py.rstrip (Py.lstrip r) = Py.rstrip (Py.lstrip "")).
    by rewrite (lstrip_blank r Hr).
  - destruct (Py.isspace c); [done|].
    apply (rstrip_app_blank (String c x) r Hr).
Qed.

Lemma strip_padded (l query_str r : string) :
  blank l = true → blank r = true →
  Py.strip (l +:+ query_str +:+ r) = Py.strip query_str.
Proof.
  intros Hl Hr. unfold Py.strip at 1. rewrite (lstrip_blank_app _ _ Hl).
  apply (strip_app_blank _ _ Hr).
Qed.

(** X4. White space before and after the command (spaces, tabs, line
    ends) changes nothing: the padded command has the same tokens and
    gives the same request or the same exception. *)
Theorem surrounding_white_space_ignored (l query_str r : string) :
  blank l = true → blank r = true →
  tokenize (l +:+ query_str +:+ r) = tokenize query_str
  ∧ parse_query (l +:+ query_str +:+ r) = parse_query query_str.
Proof.
  intros Hl Hr.
  assert (tokenize (l +:+ query_str +:+ r) = tokenize query_str) as Ht
    by (unfold tokenize; by rewrite strip_padded).
  split; [done|]. unfold parse_query. by rewrite Ht.
Qed.

Lemma surrounding_white_space_ignored_witness :
  tokenize ((" " +:+ tab) +:+ "&stock amd 1mo 1d candle 9" +:+ (newline +:+ " "))
  = tokenize "&stock amd 1mo 1d candle 9"
  ∧ parse_query ((" " +:+ tab) +:+ "&stock amd 1mo 1d candle 9" +:+ (newline +:+ " "))
    = parse_query "&stock amd 1mo 1d candle 9".
Proof.
  apply (surrounding_white_space_ignored (" " +:+ tab)
           "&stock amd 1mo 1d candle 9" (newline +:+ " "));
    reflexivity.
Defined.

Lemma upper_char_no_space (c : ascii) :
  c ≠ " "%char → 32%N ∉ Py.upper_char c.
Proof.
  intros Hc. destruct c as [[] [] [] [] [] [] [] []];
    first [by_decide | exfalso; by apply Hc].
Qed.

Lemma upper_no_space (s : string) :
  occurs " " s = 0%nat → 32%N ∉ Py.upper s.
Proof.
  induction s as [|c s IH]; simpl.
  - intros _. apply not_elem_of_nil.
  - destruct (decide (c = " "%char)) as [Hc|Hc]; [done|]. simpl. intros Hs.
    apply not_elem_of_app. split; [by apply upper_char_no_space|by apply IH].
Qed.

(** X5. The ticker of a returned request holds no space, and so the
    address that [request_data] builds from it holds none either. *)
Theorem parsed_ticker_has_no_space (query_str : string) (tokens : ChartRequest) :
  parse_query query_str = Ok tokens →
  32%N ∉ ticker tokens
  ∧ 32%N ∉ stock_url (ticker tokens).
Proof.
  intros (t1 & _ & H1 & Htk & _)%parse_query_Ok_inv.
  assert (32%N ∉ ticker tokens) as H.
  { rewrite Htk. apply upper_no_space.
    pose proof (split_no_sep " " (Py.strip query_str)) as Hall.
    rewrite Forall_forall in Hall. apply Hall.
    apply list_elem_of_lookup. by exists 1%nat. }
  split; [done|]. unfold stock_url.
  rewrite !not_elem_of_app. split; [by_decide|]. split; [done|by_decide].
Qed.

Lemma parsed_ticker_has_no_space_witness :
  32%N ∉ Py.ustr "BRK-B"
  ∧ 32%N ∉ stock_url (Py.ustr "BRK-B").
Proof.
  apply (parsed_ticker_has_no_space "&stock brk-b 10y 3mo line"
           {| ticker := Py.ustr "BRK-B"; range := "10y"; interval := "3mo";
              type := "line"; mav := [] |}).
  vm_compute. reflexivity.
Defined.

(** ** request_data: one GET, and what is read after it *)

Section Fetcher.
Context {W : World}.

(** X6. When [requests.get] itself raises, the exception leaves
    [request_data] as it is, after the one GET and with nothing read. *)
Theorem transport_error_propagates (tokens : ChartRequest) (e : exn) :
  requests_get (stock_url (ticker tokens)) headers (request_params tokens)
  = Raise e →
  request_data tokens
  = ([Get (stock_url (ticker tokens)) headers (request_params tokens)],
     Raise e).
Proof.
  intros Hget. unfold request_data. rewrite bind_emit, Hget. reflexivity.
Qed.

Lemma request_data_Ok_inv (tokens : ChartRequest)
    (tr : list event) (data : DataFrame) :
  request_data tokens = (tr, Ok data) →
  ∃ response,
    requests_get (stock_url (ticker tokens)) headers (request_params tokens)
    = Ok response
    ∧ status_code response ≠ 404
    ∧ read_csv (text response) = Ok data
    ∧ tr = [Get (stock_url (ticker tokens)) headers (request_params tokens);
            ReadCsv (text response)].
Proof.
  unfold request_data. rewrite bind_emit.
  destruct (requests_get _ _ _) as [response|e] eqn:Hget; [|done].
  rewrite bind_lift_Ok.
  destruct (status_code response =? 404) eqn:Hst; [done|].
  rewrite bind_emit. unfold trace, outcome, lift. simpl.
  intros [= <- Hcsv]. exists response. apply Z.eqb_neq in Hst. done.
Qed.

(** X7. [request_data] returns a table only if the GET was answered with
    a status other than 404 and [read_csv] accepted the body; the table
    is the one [read_csv] made of that body, and the calls were the GET
    and then the reading, nothing else. *)
Theorem returned_table_is_parsed_body (tokens : ChartRequest)
    (tr : list event) (data : DataFrame) :
  request_data tokens = (tr, Ok data) →
  ∃ response,
    requests_get (stock_url (ticker tokens)) headers (request_params tokens)
    = Ok response
    ∧ status_code response ≠ 404
    ∧ read_csv (text response) = Ok data
    ∧ tr = [Get (stock_url (ticker tokens)) headers (request_params tokens);
            ReadCsv (text response)].
Proof. apply request_data_Ok_inv. Qed.

Lemma request_data_trace (tokens : ChartRequest) :
  ∃ rest,
    trace (request_data tokens)
    = Get (stock_url (ticker tokens)) headers (request_params tokens) :: rest
    ∧ (rest = []
       ∨ ∃ response,
           requests_get (stock_url (ticker tokens)) headers
             (request_params tokens) = Ok response
           ∧ rest = [ReadCsv (text response)]).
Proof.
  unfold request_data. rewrite bind_emit.
  destruct (requests_get _ _ _) as [response|e] eqn:Hget.
  - rewrite bind_lift_Ok.
    destruct (status_code response =? 404).
    + exists []. split; [done|]. by left.
    + rewrite bind_emit. exists [ReadCsv (text response)].
      split; [done|]. right. by exists response.
  - exists []. split; [done|]. by left.
Qed.

(** X8. Every call of [request_data] makes exactly one GET, first; the
    address is the fixed base with the ticker, the parameters are the
    range, the interval and [events=history].  After it comes at most one
    reading, of the body of the answer. *)
Theorem exactly_one_get (tokens : ChartRequest) :
  ∃ rest,
    trace (request_data tokens)
    = Get (Py.ustr "https://query1.finance.yahoo.com/v7/finance/download/"
           ++ ticker tokens ++ Py.ustr "?")
          headers
          [("range", range tokens); ("interval", interval tokens);
           ("events", "history")]
      :: rest
    ∧ (rest = []
       ∨ ∃ response,
           requests_get (stock_url (ticker tokens)) headers
             (request_params tokens) = Ok response
           ∧ rest = [ReadCsv (text response)]).
Proof. apply request_data_trace. Qed.

(** X9. The chart type and the moving averages play no part in the
    fetch: two requests with the same ticker, range and interval are
    fetched alike. *)
Theorem fetch_ignores_chart_fields (tokens tokens' : ChartRequest) :
  ticker tokens = ticker tokens' →
  range tokens = range tokens' →
  interval tokens = interval tokens' →
  request_data tokens = request_data tokens'.
Proof.
  intros Htk Hr Hi. unfold request_data, request_params.
  by rewrite Htk, Hr, Hi.
Qed.

End Fetcher.

Lemma transport_error_propagates_witness :
  request_data (W:=offline_world)
    {| ticker := Py.ustr "SPY"; range := "2y"; interval := "1wk"; type := "candle";
       mav := [5] |}
  = ([Get (Py.ustr "https://query1.finance.yahoo.com/v7/finance/download/SPY?") headers
        [("range", "2y"); ("interval", "1wk"); ("events", "history")]],
     Raise (LibraryError "ConnectionError")).
Proof.
  apply (transport_error_propagates (W:=offline_world)
           {| ticker := Py.ustr "SPY"; range := "2y"; interval := "1wk";
              type := "candle"; mav := [5] |}).
  reflexivity.
Defined.

Lemma returned_table_is_parsed_body_witness :
  ∃ response,
    requests_get (World:=test_world)
      (Py.ustr "https://query1.finance.yahoo.com/v7/finance/download/SPY?")
      headers
      [("range", "2y"); ("interval", "1wk"); ("events", "history")]
    = Ok response
    ∧ status_code response ≠ 404
    ∧ read_csv (World:=test_world) (text response)
      = Ok ["Date"; "Open"; "High"; "Low"; "Close"; "Volume"]
    ∧ [Get (W:=test_world)
         (Py.ustr "https://query1.finance.yahoo.com/v7/finance/download/SPY?")
         headers
         [("range", "2y"); ("interval", "1wk"); ("events", "history")];
       ReadCsv "Date,Open,High,Low,Close,Volume"]
      = [Get (Py.ustr "https://query1.finance.yahoo.com/v7/finance/download/SPY?") headers
           [("range", "2y"); ("interval", "1wk"); ("events", "history")];
         ReadCsv (text response)].
Proof.
  apply (returned_table_is_parsed_body (W:=test_world)
           {| ticker := Py.ustr "SPY"; range := "2y"; interval := "1wk";
              type := "candle"; mav := [5] |}).
  vm_compute. reflexivity.
Defined.

Lemma fetch_ignores_chart_fields_witness :
  request_data (W:=test_world)
    {| ticker := Py.ustr "SPY"; range := "2y"; interval := "1wk"; type := "candle";
       mav := [5; 10; 20] |}
  = request_data (W:=test_world)
      {| ticker := Py.ustr "SPY"; range := "2y"; interval := "1wk"; type := "line";
         mav := [] |}.
Proof.
  apply (fetch_ignores_chart_fields (W:=test_world)); reflexivity.
Defined.

(** ** create_chart: which lines get a label, and when the image is saved *)

Section Renderer.
Context {W : World}.






Lemma label_loop_only_texts (tokens : ChartRequest) (ax : Axes float)
    (todo : list (Line float)) (i : nat) :
  Forall (λ ev, is_text ev = true) (trace (label_loop tokens ax i todo)).
Proof.
  revert i. induction todo as [|l todo IH]; intros i; simpl; [by constructor|].
  specialize (IH (S i)).
  unfold label_body.
  destruct (bool_decide (type tokens = "line")
            && (Z.of_nat i =? Z.of_nat (length (lines ax)) - 1)).
  { by rewrite bind_ret. }
  destruct (tuple_index (mav tokens) i) as [w|e]; [|by constructor].
  rewrite bind_lift_Ok.
  destruct (Py.index (lines ax) i) as [line|e]; [|by constructor].
  rewrite bind_lift_Ok.
  destruct (last_value (ydata line)) as [y|e]; [|by constructor].
  rewrite bind_lift_Ok, mavcolors_lookup, bind_lift_Ok, bind_emit.
  by constructor.
Qed.

Lemma annotate_only_texts (tokens : ChartRequest) (ax : Axes float) :
  Forall (λ ev, is_text ev = true) (trace (annotate tokens ax)).
Proof.
  unfold annotate. destruct (Py.truthy (mav tokens)).
  - apply label_loop_only_texts.
  - by constructor.
Qed.

(** [create_chart] once the plot has returned its axes. *)
Lemma create_chart_after_plot (data : DataFrame) (tokens : ChartRequest)
    (ax : Axes float) (axes : list (Axes float)) :
  mpf_plot data (setup tokens) = Ok (ax :: axes) →
  create_chart data tokens
  = match outcome (annotate tokens ax) with
    | Ok _ =>
        (Plot data (setup tokens) :: SetTitle (title tokens)
           :: trace (annotate tokens ax)
           ++ [Savefig "stock.png"; Print "Complete"],
         Ok tt)
    | Raise e =>
        (Plot data (setup tokens) :: SetTitle (title tokens)
           :: trace (annotate tokens ax),
         Raise e)
    end.
Proof.
  intros Hplot. unfold create_chart.
  rewrite bind_emit, Hplot, bind_lift_Ok.
  change (Py.index (ax :: axes) 0) with (Ok ax).
  rewrite bind_lift_Ok, bind_emit.
  destruct (annotate tokens ax) as [tr [[]|e]]; reflexivity.
Qed.

End Renderer.

Section RendererProperties.
Context {W : World}.







Lemma create_chart_shape (data : DataFrame) (tokens : ChartRequest) :
  ∃ labels,
    Forall (λ ev, is_text ev = true) labels
    ∧ ((outcome (create_chart data tokens) = Ok tt
        ∧ trace (create_chart data tokens)
          = Plot data (setup tokens) :: SetTitle (title tokens)
              :: labels ++ [Savefig "stock.png"; Print "Complete"])
       ∨ (fails (outcome (create_chart data tokens))
          ∧ (trace (create_chart data tokens) = [Plot data (setup tokens)]
             ∨ trace (create_chart data tokens)
               = Plot data (setup tokens) :: SetTitle (title tokens)
                   :: labels))).
Proof.
  destruct (mpf_plot data (setup tokens)) as [[|ax axes]|e] eqn:Hplot.
  - exists []. split; [by constructor|]. right.
    unfold create_chart. rewrite bind_emit, Hplot, bind_lift_Ok.
    split; [by eexists|by left].
  - exists (trace (annotate tokens ax)).
    split; [apply annotate_only_texts|].
    rewrite (create_chart_after_plot data tokens ax axes Hplot).
    destruct (outcome (annotate tokens ax)) as [[]|e].
    + by left.
    + right. split; [by eexists|by right].
  - exists []. split; [by constructor|]. right.
    unfold create_chart. rewrite bind_emit, Hplot.
    split; [by eexists|by left].
Qed.

(** X14. The image is saved only after every label: when [create_chart]
    returns, its calls were the plot, the title, labels and nothing else,
    then [savefig] of [stock.png] and the print of [Complete], once each
    and in this order; when the loop of the labels raises, [create_chart]
    ends with that exception after the plot, the title and the labels
    written so far, and neither [savefig] nor [print] is called. *)
Theorem saved_after_the_labels (data : DataFrame) (tokens : ChartRequest) :
  (outcome (create_chart data tokens) = Ok tt →
   ∃ labels,
     Forall (λ ev, is_text ev = true) labels
     ∧ trace (create_chart data tokens)
       = Plot data (setup tokens) :: SetTitle (title tokens)
           :: labels ++ [Savefig "stock.png"; Print "Complete"])
  ∧ (∀ ax axes e,
       mpf_plot data (setup tokens) = Ok (ax :: axes) →
       outcome (annotate tokens ax) = Raise e →
       Forall (λ ev, is_text ev = true) (trace (annotate tokens ax))
       ∧ create_chart data tokens
         = (Plot data (setup tokens) :: SetTitle (title tokens)
              :: trace (annotate tokens ax),
            Raise e)).
Proof.
  split.
  - intros Hok.
    destruct (create_chart_shape data tokens)
      as (labels & Hlabels & [[_ Htr]|[[e He] _]]).
    + by exists labels.
    + rewrite He in Hok. done.
  - intros ax axes e Hplot He. split; [apply annotate_only_texts|].
    rewrite (create_chart_after_plot data tokens ax axes Hplot).
    by rewrite He.
Qed.

(** X15. An exception of the plot call leaves [create_chart] as it is;
    no title is set, nothing is saved. *)
Theorem plot_error_propagates (data : DataFrame) (tokens : ChartRequest)
    (e : exn) :
  mpf_plot data (setup tokens) = Raise e →
  create_chart data tokens = ([Plot data (setup tokens)], Raise e).
Proof.
  intros Hplot. unfold create_chart. by rewrite bind_emit, Hplot.
Qed.

End RendererProperties.





Lemma saved_after_the_labels_witness :
  (∃ labels,
     Forall (λ ev, is_text ev = true) labels
     ∧ trace (create_chart (W:=test_world) ["Date"; "Close"]
                {| ticker := Py.ustr "SPY"; range := "2y"; interval := "1wk";
                   type := "candle"; mav := [5] |})
       = Plot (W:=test_world) ["Date"; "Close"]
           (setup {| ticker := Py.ustr "SPY"; range := "2y";
                     interval := "1wk"; type := "candle"; mav := [5] |})
           :: SetTitle (Py.ustr "SPY (2y Range, 1wk Interval)")
           :: labels ++ [Savefig "stock.png"; Print "Complete"])
  ∧ create_chart (W:=hollow_line_world) ["Date"; "Close"]
      {| ticker := Py.ustr "SPY"; range := "2y"; interval := "1wk";
         type := "candle"; mav := [5; 10] |}
    = ([Plot (W:=hollow_line_world) ["Date"; "Close"]
          (setup {| ticker := Py.ustr "SPY"; range := "2y";
                    interval := "1wk"; type := "candle"; mav := [5; 10] |});
        SetTitle (Py.ustr "SPY (2y Range, 1wk Interval)");
        Text 0 "MA5: 7.00" "#5662f6"],
       Raise (IndexError "index -1 is out of bounds for axis 0 with size 0")).
Proof.
  split.
  - apply (proj1 (saved_after_the_labels (W:=test_world) ["Date"; "Close"]
                    {| ticker := Py.ustr "SPY"; range := "2y";
                       interval := "1wk"; type := "candle"; mav := [5] |})).
    vm_compute. reflexivity.
  - apply (proj2 (saved_after_the_labels (W:=hollow_line_world)
                    ["Date"; "Close"]
                    {| ticker := Py.ustr "SPY"; range := "2y";
                       interval := "1wk"; type := "candle"; mav := [5; 10] |})
             {| lines := [ {| ydata := [7] |}; {| ydata := [] |} ] |} []
             (IndexError "index -1 is out of bounds for axis 0 with size 0"));
      vm_compute; reflexivity.
Defined.

Lemma plot_error_propagates_witness :
  create_chart (W:=failing_plot_world)
    []
    {| ticker := Py.ustr "SPY"; range := "2y"; interval := "1wk"; type := "candle";
       mav := [5] |}
  = ([Plot (W:=failing_plot_world) []
        (setup {| ticker := Py.ustr "SPY"; range := "2y"; interval := "1wk";
                  type := "candle"; mav := [5] |})],
     Raise (LibraryError "Zero-size array")).
Proof.
  apply (plot_error_propagates
           (W:=failing_plot_world)).
  reflexivity.
Defined.

(** ** The script: parse, fetch, render, and where it stops *)

Section Script.
Context {W : World}.

Lemma bind_Ok {A B} (tr : list event) (a : A) (k : A → M B) :
  (x <-- (tr, Ok a) ;; k x) = (tr ++ trace (k a), outcome (k a)).
Proof. unfold bind. by destruct (k a). Qed.

Lemma bind_Raise {A B} (tr : list event) (e : exn) (k : A → M B) :
  (x <-- (tr, Raise e) ;; k x) = (tr, Raise e).
Proof. reflexivity. Qed.

(** X16. A command that [parse_query] refuses causes no call at all:
    nothing is requested, read, plotted, saved or printed, and the
    exception of the parser is the one of the script. *)
Theorem refused_command_no_call (query_str : string) (e : exn) :
  parse_query query_str = Raise e →
  script query_str = ([], Raise e).
Proof. intros Hp. unfold script. by rewrite Hp. Qed.

(** X17. When the fetch fails, for whatever reason (transport, status
    404, a body that is not a table), the script ends with the exception
    of the fetch and its calls are those of the fetch: the plot is never
    called. *)
Theorem failed_fetch_no_plot (query_str : string) (tokens : ChartRequest)
    (e : exn) :
  parse_query query_str = Ok tokens →
  outcome (request_data tokens) = Raise e →
  script query_str = (trace (request_data tokens), Raise e).
Proof.
  intros Hp He. unfold script. rewrite Hp, bind_lift_Ok.
  destruct (request_data tokens) as [tr r]. simpl in He. subst r.
  reflexivity.
Qed.

(** X18. A run of the script that returns went through every stage once
    and in order: the command parsed, one GET was answered, its body was
    read as a table, the table was plotted with the type and the moving
    averages of the command, the title was set, labels were written, the
    image was saved and [Complete] was printed. *)
Theorem returned_run_shape (query_str : string) :
  outcome (script query_str) = Ok tt →
  ∃ tokens response data labels,
    parse_query query_str = Ok tokens
    ∧ requests_get (stock_url (ticker tokens)) headers (request_params tokens)
      = Ok response
    ∧ read_csv (text response) = Ok data
    ∧ Forall (λ ev, is_text ev = true) labels
    ∧ trace (script query_str)
      = Get (stock_url (ticker tokens)) headers (request_params tokens)
        :: ReadCsv (text response)
        :: Plot data (setup tokens)
        :: SetTitle (title tokens)
        :: labels ++ [Savefig "stock.png"; Print "Complete"].
Proof.
  unfold script.
  destruct (parse_query query_str) as [tokens|e]; [|done].
  rewrite bind_lift_Ok.
  destruct (request_data tokens) as [tr [data|e]] eqn:Hreq; [|done].
  rewrite bind_Ok. unfold outcome at 1, trace at 1. simpl fst. simpl snd.
  intros Hok.
  destruct (request_data_Ok_inv _ _ _ Hreq) as (response & Hget & _ & Hcsv & ->).
  destruct (create_chart_shape data tokens)
    as (labels & Hlabels & [[_ Htr]|[[e He] _]]).
  - exists tokens, response, data, labels. rewrite Htr. done.
  - rewrite He in Hok. done.
Qed.

End Script.

Lemma refused_command_no_call_witness :
  script (W:=test_world) "$stock SPY 2y 1wk candle" = ([], Raise (TypeError usage)).
Proof.
  apply (refused_command_no_call (W:=test_world)). vm_compute. reflexivity.
Defined.

Lemma failed_fetch_no_plot_witness :
  script (W:=test_world) "&stock void 1y 1d candle 5"
  = ([Get (Py.ustr "https://query1.finance.yahoo.com/v7/finance/download/VOID?") headers
        [("range", "1y"); ("interval", "1d"); ("events", "history")];
      ReadCsv ""],
     Raise (LibraryError "No columns to parse from file")).
Proof.
  apply (failed_fetch_no_plot (W:=test_world) "&stock void 1y 1d candle 5"
           {| ticker := Py.ustr "VOID"; range := "1y"; interval := "1d";
              type := "candle"; mav := [5] |}).
  - vm_compute. reflexivity.
  - reflexivity.
Defined.

Lemma returned_run_shape_witness :
  ∃ tokens response data labels,
    parse_query "&stock spy 1y 1d line 5 10" = Ok tokens
    ∧ requests_get (World:=test_world) (stock_url (ticker tokens)) headers
        (request_params tokens) = Ok response
    ∧ read_csv (World:=test_world) (text response) = Ok data
    ∧ Forall (λ ev, is_text ev = true) labels
    ∧ trace (script (W:=test_world) "&stock spy 1y 1d line 5 10")
      = Get (stock_url (ticker tokens)) headers (request_params tokens)
        :: ReadCsv (text response)
        :: Plot data (setup tokens)
        :: SetTitle (title tokens)
        :: labels ++ [Savefig "stock.png"; Print "Complete"].
Proof.
  apply (returned_run_shape (W:=test_world) "&stock spy 1y 1d line 5 10").
  vm_compute. reflexivity.
Defined.

(** ** The numeral of a window, read back by [int] *)

Lemma scan_digits_digit (c : ascii) (s : string) (acc d : Z) (n : nat)
    (prev_digit : bool) :
  Py.digit_value c = Some d →
  Py.scan_digits (String c s) acc n prev_digit
  = Py.scan_digits s (acc * 10 + d) (S n) true.
Proof. intros Hd. cbn [Py.scan_digits]. by rewrite Hd. Qed.

Lemma scan_digits_acc (d : Decimal.uint) (acc : positive) (n : nat) :
  Py.scan_digits (NilEmpty.string_of_uint d) (Z.pos acc) n true
  = Some (Z.pos (Pos.of_uint_acc d acc), (n + Decimal.nb_digits d)%nat,
          EmptyString).
Proof.
  revert acc n.
  induction d as [|d IH|d IH|d IH|d IH|d IH|d IH|d IH|d IH|d IH|d IH];
    intros acc n; simpl NilEmpty.string_of_uint;
    [simpl; by rewrite Nat.add_0_r|..];
    (erewrite scan_digits_digit by reflexivity);
    cbn [Decimal.nb_digits Pos.of_uint_acc];
    rewrite <- Nat.add_succ_comm, <- IH; f_equal;
    match goal with
    | |- context [Z.of_N (Py.code ?c) - 48] =>
        let v := eval vm_compute in (Z.of_N (Py.code c) - 48) in
        change (Z.of_N (Py.code c) - 48) with v
    end; lia.
Qed.

Lemma scan_digits_zero (d : Decimal.uint) (n : nat) (prev_digit : bool) :
  d ≠ Decimal.Nil ∨ prev_digit = true →
  Py.scan_digits (NilEmpty.string_of_uint d) 0 n prev_digit
  = Some (Z.of_N (Pos.of_uint d), (n + Decimal.nb_digits d)%nat, EmptyString).
Proof.
  revert n prev_digit.
  induction d as [|d IH|d IH|d IH|d IH|d IH|d IH|d IH|d IH|d IH|d IH];
    intros n b Hd; simpl NilEmpty.string_of_uint;
    [destruct Hd as [?| ->]; [done|]; simpl; by rewrite Nat.add_0_r
    |erewrite scan_digits_digit by reflexivity;
     cbn [Decimal.nb_digits Pos.of_uint];
     rewrite <- Nat.add_succ_comm; apply IH; by right
    |erewrite scan_digits_digit by reflexivity;
     cbn [Decimal.nb_digits Pos.of_uint];
     rewrite <- Nat.add_succ_comm; apply (scan_digits_acc d)..].
Qed.

Lemma length_string_of_uint (d : Decimal.uint) :
  String.length (NilEmpty.string_of_uint d) = Decimal.nb_digits d.
Proof. induction d; simpl; by f_equal. Qed.

Lemma str_int_pos (p : positive) :
  Py.str_int (Z.pos p) = NilEmpty.string_of_uint (Pos.to_uint p).
Proof.
  unfold Py.str_int. simpl Z.to_int. simpl NilZero.string_of_int.
  pose proof (DecimalPos.Unsigned.to_uint_nonnil p) as Hnil.
  unfold NilZero.string_of_uint. by destruct (Pos.to_uint p).
Qed.

Lemma str_int_neg (p : positive) :
  Py.str_int (Z.neg p) = String "-" (NilEmpty.string_of_uint (Pos.to_uint p)).
Proof.
  unfold Py.str_int. simpl Z.to_int. simpl NilZero.string_of_int.
  pose proof (DecimalPos.Unsigned.to_uint_nonnil p) as Hnil.
  unfold NilZero.string_of_uint. by destruct (Pos.to_uint p).
Qed.

Lemma unsigned_int_numeral (sign : Z) (p : positive) :
  (Decimal.nb_digits (Pos.to_uint p) ≤ Py.max_str_digits)%nat →
  Py.unsigned_int sign (NilEmpty.string_of_uint (Pos.to_uint p))
  = Ok (sign * Z.pos p).
Proof.
  intros Hlen. unfold Py.unsigned_int.
  rewrite scan_digits_zero
    by (left; apply DecimalPos.Unsigned.to_uint_nonnil).
  rewrite DecimalPos.Unsigned.of_to. cbn [Py.skip_space].
  apply Nat.ltb_ge in Hlen. cbn [Nat.add]. by rewrite Hlen.
Qed.

Lemma int_numeral (d : Decimal.uint) :
  d ≠ Decimal.Nil →
  Py.int (NilEmpty.string_of_uint d)
  = Py.unsigned_int 1 (NilEmpty.string_of_uint d).
Proof. destruct d; [done|reflexivity..]. Qed.

(** X19. [int] reads back what [str] writes: for every integer of at
    most 4300 decimal digits, positive, zero or negative, the numeral
    that a label shows for a window is accepted by [int] as a moving
    average and gives the same integer. *)
Theorem int_reads_back_str (z : Z) :
  (String.length (Py.str_int (Z.abs z)) ≤ Py.max_str_digits)%nat →
  Py.int (Py.str_int z) = Ok z.
Proof.
  destruct z as [|p|p].
  - intros _. reflexivity.
  - change (Z.abs (Z.pos p)) with (Z.pos p).
    rewrite str_int_pos, length_string_of_uint. intros Hlen.
    rewrite int_numeral by apply DecimalPos.Unsigned.to_uint_nonnil.
    rewrite (unsigned_int_numeral 1 p Hlen). f_equal.
  - change (Z.abs (Z.neg p)) with (Z.pos p).
    rewrite str_int_pos, str_int_neg, length_string_of_uint. intros Hlen.
    change (Py.int (String "-" (NilEmpty.string_of_uint (Pos.to_uint p))))
      with (Py.unsigned_int (-1) (NilEmpty.string_of_uint (Pos.to_uint p))).
    rewrite (unsigned_int_numeral (-1) p Hlen). f_equal.
Qed.

Lemma int_reads_back_str_witness : Py.int (Py.str_int (-2026)) = Ok (-2026).
Proof.
  apply (int_reads_back_str (-2026)). vm_compute. lia.
Defined.

(** ** The ticker in either case, and the one GET of a run *)

(** X20. The ticker token counts through its upper case only: two
    commands whose tokens differ in the second one alone, by the case of
    letters, give the same request or the same exception. *)
Theorem ticker_case_is_ignored (query_str query_str' t0 t1 t1' : string)
    (others : list string) :
  tokenize query_str = t0 :: t1 :: others →
  tokenize query_str' = t0 :: t1' :: others →
  Py.upper t1 = Py.upper t1' →
  parse_query query_str = parse_query query_str'.
Proof.
  intros Ht Ht' Hup. unfold parse_query. rewrite Ht, Ht'.
  change (Py.index (t0 :: t1 :: others) 0) with (Ok t0).
  change (Py.index (t0 :: t1' :: others) 0) with (Ok t0).
  change (Py.index (t0 :: t1 :: others) 1) with (Ok t1).
  change (Py.index (t0 :: t1' :: others) 1) with (Ok t1').
  change (Py.index (t0 :: t1 :: others) 2) with (Py.index others 0).
  change (Py.index (t0 :: t1' :: others) 2) with (Py.index others 0).
  change (Py.index (t0 :: t1 :: others) 3) with (Py.index others 1).
  change (Py.index (t0 :: t1' :: others) 3) with (Py.index others 1).
  change (Py.index (t0 :: t1 :: others) 4) with (Py.index others 2).
  change (Py.index (t0 :: t1' :: others) 4) with (Py.index others 2).
  change (drop 5 (t0 :: t1 :: others)) with (drop 3 others).
  change (drop 5 (t0 :: t1' :: others)) with (drop 3 others).
  cbn [rbind]. by rewrite Hup.
Qed.

Lemma ticker_case_is_ignored_witness :
  parse_query ("&stock Caf" +:+ e_acute +:+ " 6mo 1d line 30")
  = parse_query ("&stock cAF" +:+ E_acute +:+ " 6mo 1d line 30").
Proof.
  apply (ticker_case_is_ignored
           ("&stock Caf" +:+ e_acute +:+ " 6mo 1d line 30")
           ("&stock cAF" +:+ E_acute +:+ " 6mo 1d line 30")
           "&stock" ("Caf" +:+ e_acute) ("cAF" +:+ E_acute)
           ["6mo"; "1d"; "line"; "30"]);
    vm_compute; reflexivity.
Defined.

Section OneGet.
Context {W : World}.

Lemma gets_of_texts (labels : list event) :
  Forall (λ ev, is_text ev = true) labels → gets labels = [].
Proof.
  induction 1 as [|ev labels Hev _ IH]; [done|].
  unfold gets in *. rewrite filter_cons, IH. by destruct ev.
Qed.

Lemma gets_create_chart (data : DataFrame) (tokens : ChartRequest) :
  gets (trace (create_chart data tokens)) = [].
Proof.
  destruct (create_chart_shape data tokens)
    as (labels & Hlabels & [[_ ->]|[_ [-> | ->]]]); unfold gets.
  - rewrite !filter_cons, filter_app. cbn [is_get].
    fold (gets labels). by rewrite (gets_of_texts _ Hlabels).
  - reflexivity.
  - rewrite !filter_cons. cbn [is_get].
    fold (gets labels). by rewrite (gets_of_texts _ Hlabels).
Qed.

Lemma gets_request_data (tokens : ChartRequest) :
  gets (trace (request_data tokens))
  = [Get (stock_url (ticker tokens)) headers (request_params tokens)].
Proof.
  destruct (request_data_trace tokens) as (rest & -> & [-> | (response & _ & ->)]);
    reflexivity.
Qed.

(** X21. A run of the script makes no GET when the command is refused,
    and otherwise exactly one: for the ticker of the request, with a
    range and an interval that belong to the enumerations.  Nothing
    else is ever requested, however the run ends. *)
Theorem one_validated_get (query_str : string) :
  (fails (parse_query query_str) ∧ gets (trace (script query_str)) = [])
  ∨ ∃ tokens,
      parse_query query_str = Ok tokens
      ∧ range tokens ∈ valid_ranges
      ∧ interval tokens ∈ valid_intervals
      ∧ gets (trace (script query_str))
        = [Get (Py.ustr "https://query1.finance.yahoo.com/v7/finance/download/"
                ++ ticker tokens ++ Py.ustr "?")
               headers
               [("range", range tokens); ("interval", interval tokens);
                ("events", "history")]].
Proof.
  unfold script.
  destruct (parse_query query_str) as [tokens|e] eqn:Hp.
  - right. exists tokens.
    destruct (parse_query_Ok_inv _ _ Hp)
      as (t1 & _ & _ & _ & _ & Hr & _ & Hi & _).
    repeat split; try done.
    rewrite bind_lift_Ok.
    pose proof (gets_request_data tokens) as Hg.
    destruct (request_data tokens) as [tr [data|e]]; [|done].
    rewrite bind_Ok. unfold trace at 1. simpl fst.
    unfold gets in *. rewrite filter_app. fold (gets tr).
    unfold trace in Hg. simpl in Hg.
    fold (gets (trace (create_chart data tokens))).
    rewrite gets_create_chart, app_nil_r. exact Hg.
  - left. split; [by eexists|done].
Qed.

End OneGet.
